(* Shallow embedding of hooks/horizon_contexts.py (charm-openstack-dashboard):
   the context generators of the dashboard charm, as pure functions over the
   configuration and relation data they read, with the hook-tool effects they
   perform (juju-log, file writes, chmod) recorded in an event trace. *)

From Stdlib Require Import String Ascii List Bool ZArith Lia.
From Stdlib Require Import Setoid Sorting.Permutation Sorting.Sorted Classes.RelationClasses.
Import ListNotations.
Open Scope list_scope.
Open Scope string_scope.

(* ------------------------------------------------------------------------- *)
(** * Python values, dicts and truthiness *)

#[local] Set Warnings "-register-all".

(** The Python values the contexts carry (Python 2: [str] and [unicode] are both
    [PStr]). *)
Inductive pyval : Type :=
| PNone
| PBool (b : bool)
| PInt (z : Z)
| PStr (s : string)
| PList (l : list pyval)
| PDict (d : list (string * pyval)).

(** A Python dict with string keys, in insertion order. *)
Definition dict (V : Type) : Type := list (string * V).

(** [d.get(k)]: the value bound to [k], if any. *)
Fixpoint dget {V : Type} (d : dict V) (k : string) : option V :=
  match d with
  | [] => None
  | (k', v) :: d' => if String.eqb k k' then Some v else dget d' k
  end.

(** [d[k] = v]: replaces the binding in place, or appends a new key. *)
Fixpoint dset {V : Type} (d : dict V) (k : string) (v : V) : dict V :=
  match d with
  | [] => [(k, v)]
  | (k', v') :: d' =>
      if String.eqb k k' then (k', v) :: d' else (k', v') :: dset d' k v
  end.

(** Python truthiness ([bool(v)]). *)
Definition truthy (v : pyval) : bool :=
  match v with
  | PNone => false
  | PBool b => b
  | PInt z => negb (Z.eqb z 0)
  | PStr s => negb (String.eqb s "")
  | PList l => match l with [] => false | _ => true end
  | PDict d => match d with [] => false | _ => true end
  end.

(** [a or b]. *)
Definition pyor (a b : pyval) : pyval := if truthy a then a else b.

(** Relation data of one unit, as [relation_get(rid=.., unit=..)] returns it:
    Juju relation settings are strings. *)
Definition rdata : Type := dict string.

(** [rdata.get(k)]. *)
Definition rget (r : rdata) (k : string) : pyval :=
  match dget r k with Some s => PStr s | None => PNone end.

(** The state of one named relation: [relation_ids(name)] in order, each with
    [related_units(rid)] in order and each unit's relation data. *)
Definition relation_state : Type := list (string * list (string * rdata)).

(* ------------------------------------------------------------------------- *)
(** * Hook effects: a trace of events and Python exceptions *)

Inductive level : Type := INFO | WARNING | ERROR.

Inductive event : Type :=
| Log (lvl : level) (msg : string)          (* hookenv.log *)
| OpenW (path : string)                     (* open(path, 'w'): create/truncate *)
| Write (path : string) (data : string)     (* f.write(data) *)
| Chmod (path : string) (mode : Z)          (* os.chmod(path, mode) *)
| InstallCACert (data : string).            (* apache.install_ca_cert(data) *)

Inductive exn : Type :=
| Exception (msg : string)
| ValueError (msg : string)
| TypeError (msg : string)
| AttributeError (msg : string)
| IndexError (msg : string).

(** A computation emits events and then returns or raises. *)
Definition M (A : Type) : Type := (list event * (exn + A))%type.

Definition ret {A : Type} (a : A) : M A := ([], inr a).
Definition raise {A : Type} (e : exn) : M A := ([], inl e).
Definition emit (e : event) : M unit := ([e], inr tt).
Definition lift {A : Type} (r : exn + A) : M A := ([], r).

Definition bind {A B : Type} (m : M A) (k : A -> M B) : M B :=
  match m with
  | (t, inl e) => (t, inl e)
  | (t, inr a) => let (t', r) := k a in (app t t', r)
  end.

Notation "x <- m ;; k" := (bind m (fun x => k))
  (at level 61, m at next level, right associativity).
Notation "m ;;; k" := (bind m (fun _ : unit => k))
  (at level 61, right associativity).

(** [[f(x) for x in xs]] where [f] may raise: left to right, stops at the
    first exception. *)
Fixpoint mapM {A B : Type} (f : A -> M B) (xs : list A) : M (list B) :=
  match xs with
  | [] => ret []
  | x :: xs' => y <- f x ;; ys <- mapM f xs' ;; ret (y :: ys)
  end.

(** A loop whose body may raise or log, threading its state. *)
Fixpoint foldM {A B : Type} (f : A -> B -> M A) (xs : list B) (a : A) : M A :=
  match xs with
  | [] => ret a
  | x :: xs' => a' <- f a x ;; foldM f xs' a'
  end.

(* ------------------------------------------------------------------------- *)
(** * String helpers (Python 2 [str] methods) *)

(** [str.upper()] on a byte string (C locale: ASCII letters only). *)
Definition upper_ascii (c : ascii) : ascii :=
  let n := nat_of_ascii c in
  if (97 <=? n)%nat && (n <=? 122)%nat then ascii_of_nat (n - 32) else c.

Fixpoint upper (s : string) : string :=
  match s with
  | EmptyString => EmptyString
  | String c s' => String (upper_ascii c) (upper s')
  end.

(** Splitting at every character satisfying [p], keeping empty pieces:
    [str.split(sep)] for a one-character separator. *)
Fixpoint split_by (p : ascii -> bool) (s : string) : list string :=
  match s with
  | EmptyString => [EmptyString]
  | String c s' =>
      if p c then EmptyString :: split_by p s'
      else match split_by p s' with
           | w :: ws => String c w :: ws
           | [] => [String c EmptyString]
           end
  end.

Definition split_on (sep : ascii) (s : string) : list string :=
  split_by (fun c => Ascii.eqb c sep) s.

(** Python's whitespace: space, \t, \n, \v, \f, \r. *)
Definition is_space (c : ascii) : bool :=
  let n := nat_of_ascii c in (n =? 32)%nat || ((9 <=? n)%nat && (n <=? 13)%nat).

(** [str.split()]: runs of whitespace separate words, empty words dropped. *)
Definition split_ws (s : string) : list string :=
  filter (fun w => negb (String.eqb w "")) (split_by is_space s).

Definition nl : string := String (ascii_of_nat 10) EmptyString.

(* ------------------------------------------------------------------------- *)
(** * IdentityServiceContext.normalize *)

Definition VALID_ENDPOINT_TYPES : dict string :=
  [("PUBLICURL", "publicURL"); ("INTERNALURL", "internalURL");
   ("ADMINURL", "adminURL")].

Definition normalize (endpoint_type : string) : M string :=
  let msg := "Endpoint type specified " ++ endpoint_type ++
             " is not a valid endpoint type" in
  let invalid := emit (Log ERROR msg) ;;; raise (Exception msg) in
  (* VALID_ENDPOINT_TYPES.get(endpoint_type.upper(), None), then
     [if not normalized_form] *)
  match dget VALID_ENDPOINT_TYPES (upper endpoint_type) with
  | Some f => if truthy (PStr f) then ret f else invalid
  | None => invalid
  end.

(* ------------------------------------------------------------------------- *)
(** * Sorting and sets *)

(** [sorted(xs, key=...)] for a total preorder [le]: a stable insertion sort,
    each element going after the elements already placed that are [le] it. *)
Fixpoint insert_by {A : Type} (le : A -> A -> bool) (x : A) (l : list A) : list A :=
  match l with
  | [] => [x]
  | y :: l' => if le y x then y :: insert_by le x l' else x :: l
  end.

Definition sort_by {A : Type} (le : A -> A -> bool) (l : list A) : list A :=
  fold_left (fun acc x => insert_by le x acc) l [].

Definition pair_eqb (a b : string * string) : bool :=
  String.eqb (fst a) (fst b) && String.eqb (snd a) (snd b).

(** Python's order on [(endpoint, region)] tuples. *)
Definition pair_leb (a b : string * string) : bool :=
  String.ltb (fst a) (fst b) || (String.eqb (fst a) (fst b) && String.leb (snd a) (snd b)).

(** [s.add(x)] on a Python set of pairs, kept as a list without duplicates. *)
Definition set_add (x : string * string) (s : list (string * string)) : list (string * string) :=
  if existsb (pair_eqb x) s then s else app s [x].

(** [rd[k]] for a key the code has just checked to be present. *)
Definition rfield (r : rdata) (k : string) : string :=
  match dget r k with Some v => v | None => "" end.

(** [set(keys) <= set(rdata.keys())]. *)
Definition has_keys (ks : list string) (r : rdata) : bool :=
  forallb (fun k => match dget r k with Some _ => true | None => false end) ks.

(* ------------------------------------------------------------------------- *)
(** * IdentityServiceContext.__call__ *)

Section Identity.

(** [charmhelpers.contrib.network.ip.is_ipv6] on a string. *)
Variable is_ipv6 : string -> bool.
(** [hookenv.config(key)]: [PNone] for an unset option. *)
Variable config : string -> pyval.

(** [format_ipv6_addr(address)]: the bracketed address when it is IPv6, [None]
    otherwise ([is_ipv6(None)] is false). *)
Definition format_ipv6_addr (address : pyval) : pyval :=
  match address with
  | PStr a => if is_ipv6 a then PStr ("[" ++ a ++ "]") else PNone
  | _ => PNone
  end.

(** The result of [charmhelpers.contrib.openstack.context.context_complete]:
    no value is [None] or ['']. *)
Definition context_complete (ctxt : dict pyval) : bool :=
  forallb (fun kv => match snd kv with
                     | PNone => false
                     | PStr v => negb (String.eqb v "")
                     | _ => true
                     end) ctxt.

(** The keys whose value is [None] or [''] ([_missing] in the helper), listed in
    the mapping's order (CPython 2 walks the dict in its hash order). *)
Definition missing_keys (ctxt : dict pyval) : list string :=
  map fst (filter (fun kv => match snd kv with
                             | PNone => true
                             | PStr v => String.eqb v ""
                             | _ => false
                             end) ctxt).

(** [context_complete(ctxt)] with its effect:
    [if _missing: log('Missing required data: %s' % ' '.join(_missing), level=INFO); return False]. *)
Definition context_complete_log (ctxt : dict pyval) : M bool :=
  match missing_keys ctxt with
  | [] => ret true
  | _ => emit (Log INFO ("Missing required data: " ++ String.concat " " (missing_keys ctxt))) ;;;
         ret false
  end.

(** The [local_ctxt] built from one unit's relation data. *)
Definition local_ctxt_of (r : rdata) : dict pyval :=
  let serv_host := rget r "service_host" in
  let serv_host := pyor (format_ipv6_addr serv_host) serv_host in
  let api_version :=
    match dget r "api_version" with Some v => v | None => "2" end in
  let local_ctxt :=
    [("service_port", rget r "service_port");
     ("service_host", serv_host);
     ("service_protocol", pyor (rget r "service_protocol") (PStr "http"));
     ("api_version", PStr api_version)] in
  if String.eqb api_version "3" then
    if negb (truthy (config "default_domain")) then
      dset local_ctxt "admin_domain_id" (rget r "admin_domain_id")
    else local_ctxt
  else local_ctxt.

(** ["%(k)s" % local_ctxt] for a field of [local_ctxt] (a [str], or [None]). *)
Definition fmt_field (ctxt : dict pyval) (k : string) : string :=
  match dget ctxt k with Some (PStr v) => v | _ => "None" end.

Definition v2_endpoint (local_ctxt : dict pyval) : string :=
  fmt_field local_ctxt "service_protocol" ++ "://" ++
  fmt_field local_ctxt "service_host" ++ ":" ++
  fmt_field local_ctxt "service_port" ++ "/v2.0".

(** The body of the two nested [for] loops, on [(ctxt, regions)]. *)
Definition identity_step (st : dict pyval * list (string * string)) (r : rdata)
  : dict pyval * list (string * string) :=
  let (ctxt, regions) := st in
  let region := rget r "region" in
  let local_ctxt := local_ctxt_of r in
  if negb (context_complete local_ctxt) then (ctxt, regions) (* continue *)
  else
    let regions :=
      match region with
      | PStr reg =>
          let endpoint := v2_endpoint local_ctxt in
          fold_left (fun s reg => set_add (endpoint, reg) s) (split_ws reg) regions
      | _ => regions
      end in
    let ctxt := if (length ctxt =? 0)%nat then local_ctxt else ctxt in
    (ctxt, regions).

(** The relation data of every unit of every relation id, in iteration order. *)
Definition all_units (rels : relation_state) : list rdata :=
  flat_map (fun ru => map snd (snd ru)) rels.

Definition identity_loop (rels : relation_state) : dict pyval * list (string * string) :=
  fold_left identity_step (all_units rels) ([], []).

(** The loop body with its effect: the completeness check logs the missing keys
    of an incomplete [local_ctxt] before the [continue]. *)
Definition identity_stepM (st : dict pyval * list (string * string)) (r : rdata)
  : M (dict pyval * list (string * string)) :=
  complete <- context_complete_log (local_ctxt_of r) ;;
  if negb complete then ret st else ret (identity_step st r).

Definition identity_loopM (rels : relation_state) : M (dict pyval * list (string * string)) :=
  foldM identity_stepM (all_units rels) ([], []).

Definition region_entry (p : string * string) : pyval :=
  PDict [("endpoint", PStr (fst p)); ("title", PStr (snd p))].

(** [sorted(map(lambda r: {'endpoint': r[0], 'title': r[1]}, regions))]: Python 2
    orders two dicts with the keys [endpoint] and [title] by the smallest key
    whose values differ, i.e. as the [(endpoint, title)] tuples; so sorting the
    pairs and then mapping gives the same list. *)
Definition identity_service_context (rels : relation_state) : M (dict pyval) :=
  emit (Log INFO "Generating template context for identity-service") ;;;
  st <- identity_loopM rels ;;
  let (ctxt, regions) := st in
  let ctxt :=
    if (1 <? length regions)%nat
    then dset ctxt "regions" (PList (map region_entry (sort_by pair_leb regions)))
    else ctxt in
  let ep_types := config "endpoint-type" in
  if truthy ep_types then
    match ep_types with
    | PStr s =>
        eps <- mapM normalize (split_on ","%char s) ;;
        match eps with
        | [] => raise (IndexError "list index out of range")
        | e1 :: rest =>
            let ctxt := dset ctxt "primary_endpoint" (PStr e1) in
            match rest with
            | e2 :: _ => ret (dset ctxt "secondary_endpoint" (PStr e2))
            | [] => ret ctxt
            end
        end
    | _ => raise (AttributeError "object has no attribute 'split'")
    end
  else ret ctxt.

End Identity.

(* ------------------------------------------------------------------------- *)
(** * HorizonContext.__call__ *)

Section Horizon.

Variable config : string -> pyval.
(** [charmhelpers.core.strutils.bool_from_string]: raises [ValueError] on a
    value it cannot read as a boolean. *)
Variable bool_from_string : pyval -> exn + bool.
(** The password [pwgen()] returns on this call. *)
Variable pwgen : string.

Definition is_cisco (v : pyval) : bool :=
  match v with PStr s => String.eqb s "cisco" | _ => false end.

Definition horizon_context : M (dict pyval) :=
  compress_offline <- lift (bool_from_string (config "offline-compression")) ;;
  debug <- lift (bool_from_string (config "debug")) ;;
  ubuntu_theme <- lift (bool_from_string (config "ubuntu-theme")) ;;
  ret [("compress_offline", PBool compress_offline);
       ("debug", PBool debug);
       ("customization_module", config "customization-module");
       ("default_role", config "default-role");
       ("webroot", pyor (config "webroot") (PStr "/"));
       ("ubuntu_theme", PBool ubuntu_theme);
       ("default_theme", config "default-theme");
       ("custom_theme", config "custom-theme");
       ("secret", pyor (config "secret") (PStr pwgen));
       ("support_profile",
          if is_cisco (config "profile") then config "profile" else PNone);
       ("neutron_network_dvr", config "neutron-network-dvr");
       ("neutron_network_l3ha", config "neutron-network-l3ha");
       ("neutron_network_lb", config "neutron-network-lb");
       ("neutron_network_firewall", config "neutron-network-firewall");
       ("neutron_network_vpn", config "neutron-network-vpn");
       ("cinder_backup", config "cinder-backup");
       ("allow_password_autocompletion", config "allow-password-autocompletion");
       ("password_retrieve", config "password-retrieve");
       ("default_domain", config "default-domain");
       ("multi_domain", PBool (if truthy (config "default-domain") then false else true));
       ("default_create_volume", config "default-create-volume");
       ("image_formats", config "image-formats")].

End Horizon.

(* ------------------------------------------------------------------------- *)
(** * ApacheContext.__call__ *)

Definition ENFORCE_SSL_WARNING : string :=
  "Enforce ssl redirect requested but ssl not configured - skipping redirect".

Section Apache.

Variable config : string -> pyval.
(** The [(cert, key)] pair [apache.get_cert()] resolves on this call. *)
Variable get_cert : pyval * pyval.

Definition apache_context : M (dict pyval) :=
  let ctxt := [("http_port", PInt 70); ("https_port", PInt 433);
               ("enforce_ssl", PBool false);
               ("hsts_max_age_seconds", config "hsts-max-age-seconds");
               ("custom_theme", config "custom-theme")] in
  if truthy (config "enforce-ssl") then
    (* all(get_cert()) *)
    if truthy (fst get_cert) && truthy (snd get_cert) then
      ret (dset ctxt "enforce_ssl" (PBool true))
    else
      emit (Log WARNING ENFORCE_SSL_WARNING) ;;;
      ret ctxt
  else ret ctxt.

End Apache.

(* ------------------------------------------------------------------------- *)
(** * ApacheSSLContext.__call__ *)

Definition SSL_CERT_FILE : string := "/etc/apache2/ssl/horizon/cert_dashboard".
Definition SSL_KEY_FILE : string := "/etc/apache2/ssl/horizon/key_dashboard".
Definition LOCAL_CERT : string := "/etc/ssl/certs/dashboard.cert".
Definition LOCAL_KEY : string := "/etc/ssl/private/dashboard.key".

Section ApacheSSL.

(** [relation_ids('certificates')], each with [related_units(rid)]. *)
Variable cert_units : list (string * list string).
(** What [apache.get_ca_cert()] and [apache.get_cert()] return on this call. *)
Variable ca_cert : pyval.
Variable get_cert : pyval * pyval.
(** [os.path.exists]. *)
Variable path_exists : string -> bool.
(** [base64.b64decode] on a string: [None] when it raises ([TypeError] in
    Python 2). *)
Variable b64decode_str : string -> option string.

Definition b64decode (v : pyval) : M string :=
  match v with
  | PStr s =>
      match b64decode_str s with
      | Some d => ret d
      | None => raise (TypeError "Incorrect padding")
      end
  | _ => raise (TypeError "expected a string")
  end.

Definition use_local_ca : bool :=
  fold_left (fun use ru => if truthy (PList (map PStr (snd ru))) then false else use)
            cert_units true.

Definition ssl_context : M (dict pyval) :=
  let ctxt := [("ssl_configured", PBool false)] in
  if use_local_ca then
    if negb (truthy ca_cert) then ret ctxt
    else
      ca <- b64decode ca_cert ;;
      emit (InstallCACert ca) ;;;
      let (ssl_cert, ssl_key) := get_cert in
      if truthy ssl_cert && truthy ssl_key then
        (* with open(LOCAL_CERT, 'w') as cert_out:
               cert_out.write(b64decode(ssl_cert)) *)
        emit (OpenW LOCAL_CERT) ;;;
        c <- b64decode ssl_cert ;;
        emit (Write LOCAL_CERT c) ;;;
        emit (OpenW LOCAL_KEY) ;;;
        k <- b64decode ssl_key ;;
        emit (Write LOCAL_KEY k) ;;;
        emit (Chmod LOCAL_KEY 384) ;;;  (* 0600 *)
        ret [("ssl_configured", PBool true); ("ssl_cert", PStr LOCAL_CERT);
             ("ssl_key", PStr LOCAL_KEY)]
      else ret ctxt
  else
    if path_exists SSL_CERT_FILE && path_exists SSL_KEY_FILE then
      ret [("ssl_configured", PBool true); ("ssl_cert", PStr SSL_CERT_FILE);
           ("ssl_key", PStr SSL_KEY_FILE)]
    else ret ctxt.

End ApacheSSL.

(* ------------------------------------------------------------------------- *)
(** * LocalSettingsContext.__call__ *)





(* ------------------------------------------------------------------------- *)
(** * WebSSOFIDServiceProviderContext.__call__ *)

Section WebSSO.

(** [json.loads]: raises [ValueError] on a string that is not JSON. *)
Variable json_loads : string -> exn + pyval.

Definition websso_keys : list string := ["protocol-name"; "idp-name"; "user-facing-name"].

(** [{k: json.loads(rdata[k]) for k in websso_keys}]. *)
Definition websso_descriptor (rd : rdata) : M pyval :=
  d <- mapM (fun k => v <- lift (json_loads (rfield rd k)) ;; ret (k, v)) websso_keys ;;
  ret (PDict d).

Fixpoint websso_collect (rels : relation_state) (relations : list pyval)
  : M (list pyval) :=
  match rels with
  | [] => ret relations
  | ru :: rest =>
      match snd ru with
      | [] => websso_collect rest relations
      | (unit, rd) :: _ =>
          if has_keys websso_keys rd then
            d <- websso_descriptor rd ;; websso_collect rest (app relations [d])
          else websso_collect rest relations
      end
  end.

Definition websso_context (rels : relation_state) : M (dict pyval) :=
  relations <- websso_collect rels [] ;;
  ret (if truthy (PList relations) then [("websso_data", PList relations)] else []).

End WebSSO.

(* ------------------------------------------------------------------------- *)
(** * HorizonHAProxyContext.__call__ *)

(** [s.replace(a, b)] for one-character [a] and [b]. *)
Fixpoint replace_char (a b : ascii) (s : string) : string :=
  match s with
  | EmptyString => EmptyString
  | String c s' => String (if Ascii.eqb c a then b else c) (replace_char a b s')
  end.

(** [unit.replace('/', '-')]. *)
Definition unit_key (unit : string) : string := replace_char "/"%char "-"%char unit.

Definition HAPROXY_DEFAULT : string := "/etc/default/haproxy".

Section HAProxy.

Variable config : string -> pyval.
(** [hookenv.local_unit()]. *)
Variable local_unit : string.
(** [ip.get_ipv6_addr(exc_list=...)]: the addresses found, or the exception it
    raises when there is none. *)
Variable get_ipv6_addr : list pyval -> exn + list pyval.
(** [ip.get_relation_ip(name)]: the address it resolves on this call, or the
    exception it raises. *)
Variable get_relation_ip : string -> exn + pyval.

(** The address stored for the local unit. *)
Definition haproxy_local_addr : M pyval :=
  if truthy (config "prefer-ipv6") then
    addrs <- lift (get_ipv6_addr [config "vip"]) ;;
    match addrs with
    | [] => raise (IndexError "list index out of range")  (* [...][0] *)
    | a :: _ => ret a
    end
  else lift (get_relation_ip "cluster").

(** [cluster_hosts[_unit] = relation_get('private-address', rid=rid, unit=unit)]. *)
Definition add_cluster_unit (hosts : dict pyval) (ud : string * rdata) : dict pyval :=
  dset hosts (unit_key (fst ud)) (rget (snd ud) "private-address").

Definition haproxy_hosts (local_addr : pyval) (rels : relation_state) : dict pyval :=
  fold_left (fun h ru => fold_left add_cluster_unit (snd ru) h) rels
            (dset [] (unit_key local_unit) local_addr).

Definition haproxy_context (rels : relation_state) : M (dict pyval) :=
  addr <- haproxy_local_addr ;;
  let cluster_hosts := haproxy_hosts addr rels in
  emit (Log INFO "Ensuring haproxy enabled in /etc/default/haproxy.") ;;;
  (* with open('/etc/default/haproxy', 'w') as out: out.write('ENABLED=1\n') *)
  emit (OpenW HAPROXY_DEFAULT) ;;;
  emit (Write HAPROXY_DEFAULT ("ENABLED=1" ++ nl)) ;;;
  ret [("units", PDict cluster_hosts);
       ("service_ports", PDict [("dash_insecure", PList [PInt 80; PInt 70]);
                                ("dash_secure", PList [PInt 443; PInt 433])]);
       ("prefer_ipv6", config "prefer-ipv6")].

End HAProxy.

(* ------------------------------------------------------------------------- *)
(** * RouterSettingContext.__call__ *)

Definition router_setting_context (config : string -> pyval) : dict pyval :=
  [("disable_router", PBool (if is_cisco (config "profile") then false else true))].

(* ------------------------------------------------------------------------- *)
(** * Auxiliary definitions and sample relation states *)

(** The [(endpoint, region)] pairs named by a record's region value. *)
Definition contributes (is_ipv6 : string -> bool) (config : string -> pyval)
           (r : rdata) (p : string * string) : Prop :=
  exists rv, rget r "region" = PStr rv /\ In (snd p) (split_ws rv) /\
             fst p = v2_endpoint (local_ctxt_of is_ipv6 config r).

Definition invalid_endpoint_msg (endpoint_type : string) : string :=
  "Endpoint type specified " ++ endpoint_type ++ " is not a valid endpoint type".

Definition extra_keys : list string := ["regions"; "primary_endpoint"; "secondary_endpoint"].

Definition v3_record : rdata :=
  [("service_host", "10.0.0.1"); ("service_port", "5000"); ("api_version", "3")].





Definition websso_first_unit (ru : string * list (string * rdata)) : list rdata :=
  match snd ru with
  | [] => []
  | (_, rd) :: _ => if has_keys websso_keys rd then [rd] else []
  end.

(** The relation data that the context decodes: the first unit of each
    relation id, when it carries the three keys, in relation-id order. *)
Definition websso_firsts (rels : relation_state) : list rdata :=
  flat_map websso_first_unit rels.

Definition dq : string := String (ascii_of_nat 34) EmptyString.

Definition websso_rels_second_unit : relation_state :=
  [("websso-fid-service-provider:1",
    [("sp/0", []);
     ("sp/1", [("protocol-name", dq ++ "saml2" ++ dq); ("idp-name", dq ++ "myidp" ++ dq);
               ("user-facing-name", dq ++ "My IdP" ++ dq)])])].

Definition horizon_keys : list string :=
  ["compress_offline"; "debug"; "customization_module"; "default_role"; "webroot";
   "ubuntu_theme"; "default_theme"; "custom_theme"; "secret"; "support_profile";
   "neutron_network_dvr"; "neutron_network_l3ha"; "neutron_network_lb";
   "neutron_network_firewall"; "neutron_network_vpn"; "cinder_backup";
   "allow_password_autocompletion"; "password_retrieve"; "default_domain";
   "multi_domain"; "default_create_volume"; "image_formats"].

(** The keys of HorizonContext bound to the value of an option read as is,
    each with its option. *)
Definition horizon_passthrough : list (string * string) :=
  [("customization_module", "customization-module"); ("default_role", "default-role");
   ("default_theme", "default-theme"); ("custom_theme", "custom-theme");
   ("neutron_network_dvr", "neutron-network-dvr");
   ("neutron_network_l3ha", "neutron-network-l3ha");
   ("neutron_network_lb", "neutron-network-lb");
   ("neutron_network_firewall", "neutron-network-firewall");
   ("neutron_network_vpn", "neutron-network-vpn"); ("cinder_backup", "cinder-backup");
   ("allow_password_autocompletion", "allow-password-autocompletion");
   ("password_retrieve", "password-retrieve"); ("default_domain", "default-domain");
   ("default_create_volume", "default-create-volume"); ("image_formats", "image-formats")].

(** The three boolean options set to "yes", every other option unset. *)
Definition yes_config (k : string) : pyval :=
  if String.eqb k "offline-compression" || String.eqb k "debug" ||
     String.eqb k "ubuntu-theme"
  then PStr "yes" else PNone.




(** The lines [context_complete] logs during the identity-service loop: one
    "Missing required data" line for each incomplete record, in iteration order. *)
Definition identity_missing_logs (is_ipv6 : string -> bool) (config : string -> pyval)
  (rels : relation_state) : list event :=
  flat_map (fun r => fst (context_complete_log (local_ctxt_of is_ipv6 config r))) (all_units rels).

(** The units of the cluster relation, in iteration order. *)
Definition cluster_units (rels : relation_state) : list (string * rdata) := flat_map snd rels.

Definition ep_config (s : string) (k : string) : pyval :=
  if String.eqb k "endpoint-type" then PStr s else PNone.

(* ========================================================================= *)
(** * Properties *)

Example normalize_internal : normalize "internalurl" = ([], inr "internalURL").
Proof. reflexivity. Qed.

Example split_ws_ex : split_ws "  RegionOne	RegionTwo " = ["RegionOne"; "RegionTwo"].
Proof. reflexivity. Qed.

(** ** Strings *)





(** ** The stable insertion sort *)

Section SortBy.

Context {A : Type} (le : A -> A -> bool).
Hypothesis le_total : forall a b, le a b = false -> le b a = true.







End SortBy.

(** Sorting by a string key is stable: the elements with one key keep their
    relative order. *)

Section SortByKey.

Context {A : Type} (key : A -> string).

Let le (a b : A) : bool := String.leb (key a) (key b).





End SortByKey.

(** ** C2: endpoint-type normalisation *)

(** C2. [normalize] maps a string whose upper-casing is PUBLICURL, INTERNALURL
    or ADMINURL to exactly publicURL, internalURL or adminURL, and on any other
    string logs an ERROR and raises an exception (it never returns a value). *)
Theorem normalize_valid_or_raises (s : string) :
  (upper s = "PUBLICURL" -> normalize s = ([], inr "publicURL")) /\
  (upper s = "INTERNALURL" -> normalize s = ([], inr "internalURL")) /\
  (upper s = "ADMINURL" -> normalize s = ([], inr "adminURL")) /\
  (upper s <> "PUBLICURL" -> upper s <> "INTERNALURL" -> upper s <> "ADMINURL" ->
     normalize s = ([Log ERROR (invalid_endpoint_msg s)],
                    inl (Exception (invalid_endpoint_msg s)))).
Proof.
  unfold normalize; simpl.
  repeat split; intros; repeat match goal with H : upper s = _ |- _ => rewrite H end;
    try reflexivity.
  destruct (String.eqb_spec (upper s) "PUBLICURL"); [contradiction|].
  destruct (String.eqb_spec (upper s) "INTERNALURL"); [contradiction|].
  destruct (String.eqb_spec (upper s) "ADMINURL"); [contradiction|].
  reflexivity.
Qed.

(** ** Dict updates *)

Lemma dset_app_notin {V : Type} (base e : dict V) (k : string) (v : V) :
  ~ In k (map fst base) -> dset (app base e) k v = app base (dset e k v).
Proof.
  induction base as [|[k' v'] base IH]; simpl; intros Hn; [reflexivity|].
  destruct (String.eqb_spec k k') as [->|_]; [exfalso; apply Hn; left; reflexivity|].
  rewrite IH; [reflexivity|]. intros H; apply Hn; right; exact H.
Qed.

Lemma dset_keys {V : Type} (e : dict V) (k : string) (v : V) (P : string -> Prop) :
  P k -> Forall (fun kv => P (fst kv)) e -> Forall (fun kv => P (fst kv)) (dset e k v).
Proof.
  intros Hk; induction 1 as [|[k' v'] e Hp He IH]; simpl.
  - repeat constructor; exact Hk.
  - destruct (String.eqb k k'); constructor; assumption.
Qed.

Lemma dget_dset_other {V : Type} (d : dict V) (k k' : string) (v : V) :
  k' <> k -> dget (dset d k v) k' = dget d k'.
Proof.
  intros Hne; induction d as [|[k0 v0] d IH]; simpl.
  - destruct (String.eqb_spec k' k); [contradiction|reflexivity].
  - destruct (String.eqb_spec k k0) as [->|Hk]; simpl.
    + destruct (String.eqb_spec k' k0); [contradiction|reflexivity].
    + destruct (String.eqb k' k0); [reflexivity|exact IH].
Qed.

(** ** IdentityServiceContext *)

Section IdentityProofs.

Variable is_ipv6 : string -> bool.
Variable config : string -> pyval.

Let lc := local_ctxt_of is_ipv6 config.
Let complete (r : rdata) : bool := context_complete (lc r).

Lemma local_ctxt_of_nonempty (r : rdata) : (length (lc r) =? 0)%nat = false.
Proof.
  unfold lc, local_ctxt_of.
  destruct (String.eqb _ "3"); [destruct (negb _)|]; reflexivity.
Qed.

Lemma local_ctxt_of_no_extra_key (r : rdata) (k : string) :
  In k extra_keys -> ~ In k (map fst (lc r)).
Proof.
  unfold lc, local_ctxt_of.
  intros Hk; simpl in Hk.
  destruct (String.eqb _ "3"); [destruct (negb _)|]; simpl;
    intuition (subst; discriminate).
Qed.

Lemma identity_fold_ctxt (recs : list rdata) (ctxt : dict pyval)
      (regs : list (string * string)) :
  fst (fold_left (identity_step is_ipv6 config) recs (ctxt, regs)) =
  if (length ctxt =? 0)%nat
  then match find complete recs with Some r => lc r | None => ctxt end
  else ctxt.
Proof.
  revert ctxt regs; induction recs as [|r recs IH]; intros ctxt regs;
    cbn [fold_left find].
  - destruct (length ctxt =? 0)%nat; reflexivity.
  - destruct (identity_step is_ipv6 config (ctxt, regs) r) as [c' rg'] eqn:E.
    rewrite IH.
    assert (Hc' : c' = if complete r
                       then (if (length ctxt =? 0)%nat then lc r else ctxt)
                       else ctxt).
    { unfold identity_step in E. fold (lc r) in E. fold (complete r) in E.
      destruct (complete r); simpl in E; inversion E; reflexivity. }
    subst c'.
    destruct (complete r) eqn:Hc.
    + destruct (length ctxt =? 0)%nat eqn:Hl.
      * rewrite local_ctxt_of_nonempty. reflexivity.
      * rewrite Hl. reflexivity.
    + reflexivity.
Qed.

Lemma identity_loop_ctxt (rels : relation_state) :
  fst (identity_loop is_ipv6 config rels) =
  match find complete (all_units rels) with Some r => lc r | None => [] end.
Proof.
  unfold identity_loop. rewrite identity_fold_ctxt. reflexivity.
Qed.

Lemma missing_keys_nil (c : dict pyval) : missing_keys c = [] <-> context_complete c = true.
Proof.
  induction c as [|[k v] c IH]; [split; reflexivity|].
  unfold missing_keys, context_complete in *. cbn [filter forallb snd fst].
  destruct v as [| | |sv| |]; cbn [map andb negb]; try exact IH; try (split; discriminate).
  destruct (String.eqb sv ""); cbn [map andb negb]; [split; discriminate | exact IH].
Qed.

Lemma context_complete_log_result (c : dict pyval) :
  context_complete_log c = (fst (context_complete_log c), inr (context_complete c)).
Proof.
  unfold context_complete_log.
  destruct (missing_keys c) eqn:E.
  - apply missing_keys_nil in E. rewrite E. reflexivity.
  - assert (Hc : context_complete c = false).
    { destruct (context_complete c) eqn:Hc; [|reflexivity].
      apply missing_keys_nil in Hc. congruence. }
    rewrite Hc. reflexivity.
Qed.

Lemma identity_stepM_eq st (r : rdata) :
  identity_stepM is_ipv6 config st r =
  (fst (context_complete_log (local_ctxt_of is_ipv6 config r)),
   inr (identity_step is_ipv6 config st r)).
Proof.
  unfold identity_stepM.
  pose proof (context_complete_log_result (local_ctxt_of is_ipv6 config r)) as H.
  destruct (context_complete_log (local_ctxt_of is_ipv6 config r)) as [t b].
  cbn [fst] in H |- *. inversion H; subst b. clear H.
  destruct (context_complete (local_ctxt_of is_ipv6 config r)) eqn:Hc;
    cbn [bind ret negb]; rewrite app_nil_r; [reflexivity|].
  destruct st as [c0 rg]. unfold identity_step. cbv beta iota zeta. rewrite Hc. reflexivity.
Qed.

Lemma identity_foldM (recs : list rdata) st :
  foldM (identity_stepM is_ipv6 config) recs st =
  (flat_map (fun r => fst (context_complete_log (local_ctxt_of is_ipv6 config r))) recs,
   inr (fold_left (identity_step is_ipv6 config) recs st)).
Proof.
  revert st; induction recs as [|r recs IH]; intros st; [reflexivity|].
  cbn [foldM fold_left flat_map]. rewrite identity_stepM_eq. unfold bind.
  rewrite IH. reflexivity.
Qed.

(** The monadic loop logs the completeness checks and computes [identity_loop]. *)
Lemma identity_loopM_eq (rels : relation_state) :
  identity_loopM is_ipv6 config rels =
  (identity_missing_logs is_ipv6 config rels, inr (identity_loop is_ipv6 config rels)).
Proof.
  unfold identity_loopM, identity_missing_logs, identity_loop. apply identity_foldM.
Qed.

Let P (kv : string * pyval) : Prop := In (fst kv) extra_keys.

Lemma identity_extend_step (base e : dict pyval) (k : string) (v : pyval) :
  (forall k', In k' extra_keys -> ~ In k' (map fst base)) ->
  In k extra_keys -> Forall P e ->
  exists e', dset (app base e) k v = app base e' /\ Forall P e'.
Proof.
  intros Hb Hk He. exists (dset e k v). split.
  - apply dset_app_notin, Hb, Hk.
  - apply (dset_keys e k v (fun x => In x extra_keys)); assumption.
Qed.

Lemma identity_result_extends (rels : relation_state) (t : list event) (ctx : dict pyval) :
  identity_service_context is_ipv6 config rels = (t, inr ctx) ->
  exists extra, ctx = app (fst (identity_loop is_ipv6 config rels)) extra /\ Forall P extra.
Proof.
  assert (Hb : forall k', In k' extra_keys ->
                 ~ In k' (map fst (fst (identity_loop is_ipv6 config rels)))).
  { intros k' Hk'. rewrite identity_loop_ctxt.
    destruct (find _ _); [apply local_ctxt_of_no_extra_key; exact Hk'|intros []]. }
  unfold identity_service_context; rewrite identity_loopM_eq; unfold bind, emit.
  destruct (identity_loop is_ipv6 config rels) as [c regs] eqn:E.
  simpl in Hb.
  assert (H1 : exists e1,
      (if (1 <? length regs)%nat
       then dset c "regions" (PList (map region_entry (sort_by pair_leb regs)))
       else c) = app c e1 /\ Forall P e1).
  { destruct (1 <? length regs)%nat.
    - destruct (identity_extend_step c [] "regions"
                  (PList (map region_entry (sort_by pair_leb regs))) Hb)
        as [e' [He' Pe']]; [left; reflexivity | constructor |].
      rewrite app_nil_r in He'. exists e'. split; assumption.
    - exists []. rewrite app_nil_r. split; [reflexivity | constructor]. }
  destruct H1 as [e1 [He1 Pe1]].
  set (c1 := if (1 <? length regs)%nat then _ else c) in *.
  destruct (truthy (config "endpoint-type")).
  - destruct (config "endpoint-type") as [| | |s| |]; try (intros H; inversion H; fail).
    destruct (mapM normalize (split_on ","%char s)) as [t1 [ex|eps]];
      [intros H; inversion H|].
    destruct eps as [|e1' [|e2 rest]]; simpl; intros H; inversion H; subst ctx.
    + rewrite He1. apply identity_extend_step; [exact Hb | simpl; auto | exact Pe1].
    + rewrite He1.
      destruct (identity_extend_step c e1 "primary_endpoint" (PStr e1') Hb)
        as [e' [-> Pe']]; [simpl; auto | exact Pe1|].
      apply identity_extend_step; [exact Hb | simpl; auto | exact Pe'].
  - intros H; inversion H; subst ctx. exists e1. split; assumption.
Qed.

End IdentityProofs.

Lemma find_first_true {A : Type} (p : A -> bool) (pre post : list A) (x : A) :
  Forall (fun y => p y = false) pre -> p x = true -> find p (app pre (x :: post)) = Some x.
Proof.
  induction 1 as [|y pre Hy _ IH]; intros Hx; simpl.
  - rewrite Hx; reflexivity.
  - rewrite Hy. apply IH, Hx.
Qed.

(** C1. Over all units of all relation ids of identity-service, in iteration
    order, the first record whose [local_ctxt] is complete becomes the base
    context and no later record changes it: the returned context is that
    record's [local_ctxt] followed only by the keys added afterwards (regions,
    primary_endpoint, secondary_endpoint). In particular, when exactly one
    record is complete, the base context is that record's [local_ctxt],
    wherever the incomplete records are. *)
Theorem identity_first_complete_record_is_base (is_ipv6 : string -> bool)
        (config : string -> pyval) :
  (forall rels pre r post,
     all_units rels = app pre (r :: post) ->
     Forall (fun r' => context_complete (local_ctxt_of is_ipv6 config r') = false) pre ->
     context_complete (local_ctxt_of is_ipv6 config r) = true ->
     fst (identity_loop is_ipv6 config rels) = local_ctxt_of is_ipv6 config r /\
     (forall t ctx, identity_service_context is_ipv6 config rels = (t, inr ctx) ->
        exists extra, ctx = app (local_ctxt_of is_ipv6 config r) extra /\
                      Forall (fun kv => In (fst kv) extra_keys) extra)) /\
  (forall rels r,
     In r (all_units rels) ->
     context_complete (local_ctxt_of is_ipv6 config r) = true ->
     (forall r', In r' (all_units rels) ->
        context_complete (local_ctxt_of is_ipv6 config r') = true -> r' = r) ->
     fst (identity_loop is_ipv6 config rels) = local_ctxt_of is_ipv6 config r).
Proof.
  split.
  - intros rels pre r post Hu Hpre Hr.
    assert (Hl : fst (identity_loop is_ipv6 config rels) = local_ctxt_of is_ipv6 config r).
    { rewrite identity_loop_ctxt, Hu, (find_first_true _ pre post r Hpre Hr).
      reflexivity. }
    split; [exact Hl|].
    intros t ctx H. rewrite <- Hl. exact (identity_result_extends is_ipv6 config rels t ctx H).
  - intros rels r Hin Hr Huniq.
    rewrite identity_loop_ctxt.
    destruct (find _ (all_units rels)) as [y|] eqn:Hf.
    + apply find_some in Hf as [Hy Hyc]. rewrite (Huniq y Hy Hyc). reflexivity.
    + exfalso. apply find_none with (x := r) in Hf; [congruence | exact Hin].
Qed.

(** ** C3: completeness of an identity-service record *)

(** C3 (counterexample). A record carrying service_host and service_port but
    api_version "3" and no admin_domain_id is discarded as incomplete when the
    default_domain option is unset (here with no IPv6 address). *)
Lemma identity_v3_record_without_admin_domain_discarded :
  truthy (rget v3_record "service_host") = true /\
  truthy (rget v3_record "service_port") = true /\
  context_complete (local_ctxt_of (fun _ => false) (fun _ => PNone) v3_record) = false.
Proof. repeat split. Qed.

Ltac eqb_cases :=
  repeat match goal with
         | |- context [String.eqb ?x ?y] => destruct (String.eqb_spec x y)
         | H : context [String.eqb ?x ?y] |- _ => destruct (String.eqb_spec x y)
         end.

(** C3 (amended). service_protocol defaults to "http" when absent or empty and
    api_version to "2" when absent; a record is complete, and so kept, exactly
    when service_host and service_port are present and non-empty, api_version
    is not given as the empty string, and, when api_version is "3" and
    default_domain is unset, admin_domain_id is present and non-empty. *)
Theorem identity_record_complete_iff (is_ipv6 : string -> bool)
        (config : string -> pyval) (r : rdata) :
  is_ipv6 "" = false ->
  dget (local_ctxt_of is_ipv6 config r) "service_protocol" =
    Some (pyor (rget r "service_protocol") (PStr "http")) /\
  dget (local_ctxt_of is_ipv6 config r) "api_version" =
    Some (PStr (match dget r "api_version" with Some v => v | None => "2" end)) /\
  (context_complete (local_ctxt_of is_ipv6 config r) = true <->
   truthy (rget r "service_host") = true /\
   truthy (rget r "service_port") = true /\
   dget r "api_version" <> Some "" /\
   (dget r "api_version" = Some "3" -> truthy (config "default_domain") = false ->
    truthy (rget r "admin_domain_id") = true)).
Proof.
  intros Hv6.
  unfold local_ctxt_of, context_complete, rget, pyor, format_ipv6_addr.
  destruct (dget r "service_port") as [p|];
  destruct (dget r "service_host") as [h|];
  destruct (dget r "service_protocol") as [pr|];
  destruct (dget r "api_version") as [a|];
  destruct (dget r "admin_domain_id") as [ad|];
  destruct (truthy (config "default_domain"));
  try (destruct (is_ipv6 h) eqn:Hh);
  simpl; try rewrite Hv6; simpl;
  repeat (eqb_cases; subst; simpl in *; try rewrite Hv6 in *);
  intuition congruence.
Qed.

(** Witness of C3: with no IPv6 address and no option set, [v3_record] is
    refused because it lacks admin_domain_id. *)
Lemma identity_record_complete_iff_witness :
  context_complete (local_ctxt_of (fun _ => false) (fun _ => PNone) v3_record) = false.
Proof.
  destruct (identity_record_complete_iff (fun _ => false) (fun _ => PNone) v3_record
              eq_refl) as [_ [_ Hiff]].
  assert (Hn : context_complete (local_ctxt_of (fun _ => false) (fun _ => PNone)
                                 v3_record) <> true).
  { intros E. apply Hiff in E. destruct E as [_ [_ [_ H]]].
    specialize (H eq_refl eq_refl). discriminate H. }
  destruct (context_complete _); [exfalso; apply Hn; reflexivity | reflexivity].
Defined.

(** ** C4: regions *)


Lemma dget_dset_same {V : Type} (d : dict V) (k : string) (v : V) :
  dget (dset d k v) k = Some v.
Proof.
  induction d as [|[k' v'] d IH]; simpl.
  - rewrite String.eqb_refl. reflexivity.
  - destruct (String.eqb_spec k k') as [->|Hk]; simpl.
    + rewrite String.eqb_refl. reflexivity.
    + destruct (String.eqb_spec k k'); [contradiction|exact IH].
Qed.

Lemma pair_eqb_spec (a b : string * string) : pair_eqb a b = true <-> a = b.
Proof.
  destruct a as [a1 a2], b as [b1 b2]; unfold pair_eqb; simpl.
  rewrite andb_true_iff, !String.eqb_eq. split; [intros [-> ->]; reflexivity|].
  intros H; inversion H; split; reflexivity.
Qed.

Lemma set_add_in (x p : string * string) (s : list (string * string)) :
  In p (set_add x s) <-> p = x \/ In p s.
Proof.
  unfold set_add. destruct (existsb (pair_eqb x) s) eqn:E.
  - apply existsb_exists in E as [y [Hy Hxy]]. apply pair_eqb_spec in Hxy; subst y.
    intuition (subst; assumption).
  - rewrite in_app_iff; simpl. intuition.
Qed.


Lemma fold_set_add_in (e : string) (ws : list string) (s0 : list (string * string))
      (p : string * string) :
  In p (fold_left (fun s reg => set_add (e, reg) s) ws s0) <->
  In p s0 \/ (fst p = e /\ In (snd p) ws).
Proof.
  revert s0; induction ws as [|w ws IH]; intros s0; simpl.
  - intuition.
  - rewrite IH, set_add_in. destruct p as [p1 p2]; simpl.
    split.
    + intros [[H|H]|[H1 H2]]; [inversion H; subst; right; auto | left; exact H | right; auto].
    + intros [H|[H1 [H2|H2]]]; subst; auto.
Qed.


Section IdentityRegions.

Variable is_ipv6 : string -> bool.
Variable config : string -> pyval.

Let lc := local_ctxt_of is_ipv6 config.
Let complete (r : rdata) : bool := context_complete (lc r).

Lemma identity_step_regions (c : dict pyval) (regs : list (string * string)) (r : rdata) :
  snd (identity_step is_ipv6 config (c, regs) r) =
  if complete r then
    match rget r "region" with
    | PStr rv => fold_left (fun s w => set_add (v2_endpoint (lc r), w) s) (split_ws rv) regs
    | _ => regs
    end
  else regs.
Proof.
  unfold identity_step, complete, lc.
  destruct (context_complete (local_ctxt_of is_ipv6 config r)); simpl; [|reflexivity].
  destruct (rget r "region"); reflexivity.
Qed.

Lemma identity_fold_regions_in (recs : list rdata) (c : dict pyval)
      (regs : list (string * string)) (p : string * string) :
  In p (snd (fold_left (identity_step is_ipv6 config) recs (c, regs))) <->
  In p regs \/ exists r, In r recs /\ complete r = true /\ contributes is_ipv6 config r p.
Proof.
  revert c regs; induction recs as [|r recs IH]; intros c regs; cbn [fold_left].
  - split; [intros H; left; exact H | intros [H | [r [[] _]]]; exact H].
  - destruct (identity_step is_ipv6 config (c, regs) r) as [c' regs'] eqn:E.
    rewrite IH.
    assert (Hr : regs' = snd (identity_step is_ipv6 config (c, regs) r))
      by (rewrite E; reflexivity).
    rewrite identity_step_regions in Hr. subst regs'.
    unfold contributes.
    destruct (complete r) eqn:Hc.
    + destruct (rget r "region") as [| | |rv| |] eqn:Hrv;
        try (split;
             [ intros [H | [r' [Hin [Hc' Hcon]]]];
               [ left; exact H | right; exists r'; split; [right; exact Hin | auto] ]
             | intros [H | [r' [[<- | Hin] [Hc' Hcon]]]];
               [ left; exact H
               | destruct Hcon as [rv' [Hrv' _]]; congruence
               | right; exists r'; auto ] ]).
      rewrite fold_set_add_in. split.
      * intros [[H | [H1 H2]] | [r' [Hin [Hc' Hcon]]]].
        -- left; exact H.
        -- right. exists r. split; [left; reflexivity|]. split; [exact Hc|].
           exists rv. auto.
        -- right. exists r'. split; [right; exact Hin | auto].
      * intros [H | [r' [[<- | Hin] [Hc' Hcon]]]].
        -- left; left; exact H.
        -- destruct Hcon as [rv' [Hrv' [H1 H2]]]. rewrite Hrv in Hrv'.
           inversion Hrv'; subst rv'. left; right; auto.
        -- right. exists r'. auto.
    + split.
      * intros [H | [r' [Hin [Hc' Hcon]]]];
          [left; exact H | right; exists r'; split; [right; exact Hin | auto]].
      * intros [H | [r' [[<- | Hin] [Hc' Hcon]]]];
          [left; exact H | congruence | right; exists r'; auto].
Qed.


End IdentityRegions.



(** ** LocalSettingsContext *)







(** ** ApacheContext *)

(** C6. enforce_ssl is true exactly when enforce-ssl is set and get_cert()
    resolves both a certificate and a key; when enforce-ssl is set without both,
    enforce_ssl stays false and one WARNING is logged; the context never raises. *)
Theorem apache_enforce_ssl_iff (config : string -> pyval) (get_cert : pyval * pyval) :
  exists ctx,
    apache_context config get_cert =
      (if truthy (config "enforce-ssl") &&
          negb (truthy (fst get_cert) && truthy (snd get_cert))
       then [Log WARNING ENFORCE_SSL_WARNING] else [],
       inr ctx) /\
    dget ctx "enforce_ssl" =
      Some (PBool (truthy (config "enforce-ssl") &&
                   (truthy (fst get_cert) && truthy (snd get_cert)))).
Proof.
  unfold apache_context.
  destruct (truthy (config "enforce-ssl")); simpl;
    [destruct (truthy (fst get_cert) && truthy (snd get_cert)); simpl|];
    eexists; split; reflexivity.
Qed.

(** ** ApacheSSLContext *)

Lemma b64decode_no_events (b64decode_str : string -> option string) (v : pyval) :
  fst (b64decode b64decode_str v) = [].
Proof. destruct v; simpl; try destruct (b64decode_str s); reflexivity. Qed.

Lemma use_local_ca_no_units (cert_units : list (string * list string)) :
  Forall (fun ru => snd ru = []) cert_units -> use_local_ca cert_units = true.
Proof.
  intros H. unfold use_local_ca. generalize true as u.
  induction H as [|[rid units] rest Hru _ IH]; intros u; [reflexivity|].
  simpl in Hru; subst units. simpl. apply IH.
Qed.

Ltac ssl_trace_cases :=
  split;
  [ intros p [Hp | [d Hp]]; simpl in Hp; intuition (try discriminate; auto)
  | intros pre d post H; unfold LOCAL_KEY, LOCAL_CERT in *;
    destruct pre as [|? [|? [|? [|? [|? [|? pre]]]]]]; simpl in H;
    inversion H; subst;
    first [reflexivity | exfalso; eapply app_cons_not_nil; eassumption] ].

(** C7. On the local-authority path (no unit on any certificates relation id):
    without a CA certificate the result is exactly {ssl_configured: false} and
    nothing is done; a file is opened or written only when both the certificate
    and the key are present; and the key write is immediately followed by the
    chmod of the key file to 0600 (then the context returns). *)
Theorem ssl_local_path_writes_only_complete_material
        (cert_units : list (string * list string)) (ca_cert : pyval)
        (get_cert : pyval * pyval) (path_exists : string -> bool)
        (b64decode_str : string -> option string) :
  Forall (fun ru => snd ru = []) cert_units ->
  let run := ssl_context cert_units ca_cert get_cert path_exists b64decode_str in
  (truthy ca_cert = false -> run = ([], inr [("ssl_configured", PBool false)])) /\
  (forall p, (In (OpenW p) (fst run) \/ exists d, In (Write p d) (fst run)) ->
     truthy (fst get_cert) = true /\ truthy (snd get_cert) = true) /\
  (forall pre d post, fst run = app pre (Write LOCAL_KEY d :: post) ->
     post = [Chmod LOCAL_KEY 384]).
Proof.
  intros Hu run. unfold run, ssl_context. rewrite (use_local_ca_no_units _ Hu).
  destruct (truthy ca_cert) eqn:Hca; simpl.
  2: { split; [reflexivity|]. ssl_trace_cases. }
  split; [discriminate|].
  destruct (b64decode b64decode_str ca_cert) as [t0 r0] eqn:E0.
  pose proof (b64decode_no_events b64decode_str ca_cert) as H0.
  rewrite E0 in H0; simpl in H0; subst t0.
  destruct r0 as [e0|cad]; simpl; [ssl_trace_cases|].
  destruct get_cert as [c k]; simpl.
  destruct (truthy c) eqn:Hc, (truthy k) eqn:Hk; simpl; try ssl_trace_cases.
  destruct (b64decode b64decode_str c) as [t1 r1] eqn:E1.
  pose proof (b64decode_no_events b64decode_str c) as H1.
  rewrite E1 in H1; simpl in H1; subst t1.
  destruct r1 as [x1|cd]; simpl; [ssl_trace_cases|].
  destruct (b64decode b64decode_str k) as [t2 r2] eqn:E2.
  pose proof (b64decode_no_events b64decode_str k) as H2.
  rewrite E2 in H2; simpl in H2; subst t2.
  destruct r2 as [x2|kd]; simpl; ssl_trace_cases.
Qed.

(** Witness of C7: no certificates relation unit and no CA certificate. *)
Lemma ssl_local_path_witness :
  ssl_context [("certificates:1", [])] PNone (PNone, PNone) (fun _ => false) (fun _ => None)
  = ([], inr [("ssl_configured", PBool false)]).
Proof.
  refine (proj1 (ssl_local_path_writes_only_complete_material
                   [("certificates:1", [])] PNone (PNone, PNone) (fun _ => false)
                   (fun _ => None) _) eq_refl).
  repeat constructor.
Defined.

(** ** WebSSOFIDServiceProviderContext *)

Section WebSSOProofs.

Variable json_loads : string -> exn + pyval.

Lemma websso_descriptor_no_events (rd : rdata) : fst (websso_descriptor json_loads rd) = [].
Proof.
  unfold websso_descriptor, websso_keys; simpl.
  destruct (json_loads (rfield rd "protocol-name")); simpl; [reflexivity|].
  destruct (json_loads (rfield rd "idp-name")); simpl; [reflexivity|].
  destruct (json_loads (rfield rd "user-facing-name")); simpl; reflexivity.
Qed.

Lemma websso_collect_ok (rels : relation_state) (acc : list pyval) :
  (forall rd, In rd (websso_firsts rels) ->
     exists d, snd (websso_descriptor json_loads rd) = inr d) ->
  exists ds, websso_collect json_loads rels acc = ([], inr (app acc ds)) /\
             Forall2 (fun rd d => snd (websso_descriptor json_loads rd) = inr d)
                     (websso_firsts rels) ds.
Proof.
  unfold websso_firsts.
  revert acc; induction rels as [|[rid units] rels IH]; intros acc Hall;
    cbn [flat_map websso_collect snd] in *.
  - exists []. rewrite app_nil_r. split; [reflexivity | constructor].
  - unfold websso_first_unit in Hall |- *. cbn [snd] in Hall |- *.
    destruct units as [|[u rd] us]; cbn [app] in Hall |- *.
    + apply IH, Hall.
    + destruct (has_keys websso_keys rd); cbn [app] in Hall |- *.
      * destruct (Hall rd (or_introl eq_refl)) as [d Hd].
        destruct (websso_descriptor json_loads rd) as [t r] eqn:E.
        pose proof (websso_descriptor_no_events rd) as Ht. rewrite E in Ht.
        cbn [fst snd] in Ht, Hd; subst t r. unfold bind.
        destruct (IH (app acc [d])) as [ds [Hc Hf]].
        { intros rd' Hin. apply Hall. right. exact Hin. }
        rewrite Hc. exists (d :: ds). rewrite <- app_assoc. split; [reflexivity|].
        constructor; [rewrite E; reflexivity | exact Hf].
      * apply IH, Hall.
Qed.

Lemma websso_collect_err (rels : relation_state) (acc : list pyval) :
  (exists rd e, In rd (websso_firsts rels) /\ snd (websso_descriptor json_loads rd) = inl e) ->
  exists e, snd (websso_collect json_loads rels acc) = inl e.
Proof.
  unfold websso_firsts.
  revert acc; induction rels as [|[rid units] rels IH]; intros acc [rd [e [Hin He]]];
    cbn [flat_map websso_collect snd] in *; [contradiction|].
  unfold websso_first_unit in Hin |- *. cbn [snd] in Hin |- *.
  destruct units as [|[u rd0] us]; cbn [app] in Hin |- *; [apply IH; exists rd, e; auto|].
  destruct (has_keys websso_keys rd0); cbn [app] in Hin |- *; [|apply IH; exists rd, e; auto].
  unfold bind.
  destruct (websso_descriptor json_loads rd0) as [t [e0|d]] eqn:E.
  - exists e0. reflexivity.
  - destruct Hin as [<- | Hin]; [rewrite E in He; discriminate|].
    destruct (IH (app acc [d])) as [e1 He1]; [exists rd, e; auto|].
    destruct (websso_collect json_loads rels (app acc [d])) as [t1 r1]; cbn [snd] in He1 |- *.
    subst r1. exists e1. reflexivity.
Qed.

End WebSSOProofs.

(** C8 (counterexample). The only unit supplying the three federation keys is
    the second unit of its relation id; the context reads the first unit only,
    so it returns the empty mapping (the decoder is never called). *)
Lemma websso_second_unit_ignored :
  websso_context (fun s => inr (PStr s)) websso_rels_second_unit = ([], inr []).
Proof. reflexivity. Qed.

(** C8 (amended). Only the first related unit of each relation id is read.
    When every such first unit carrying protocol-name, idp-name and
    user-facing-name has JSON-decodable values, the context returns
    {websso_data: ds} if there is at least one, ds being their descriptors in
    relation-id order, and the empty mapping (no key) otherwise; a first unit
    missing a key contributes nothing; a value that does not decode makes the
    context raise; each descriptor maps the three keys to their decoded values. *)
Theorem websso_context_first_units (json_loads : string -> exn + pyval)
        (rels : relation_state) :
  ((forall rd, In rd (websso_firsts rels) ->
      exists d, snd (websso_descriptor json_loads rd) = inr d) ->
   exists ds ctx,
     websso_context json_loads rels = ([], inr ctx) /\
     Forall2 (fun rd d => snd (websso_descriptor json_loads rd) = inr d)
             (websso_firsts rels) ds /\
     (websso_firsts rels = [] -> ctx = []) /\
     (websso_firsts rels <> [] -> ctx = [("websso_data", PList ds)])) /\
  ((exists rd e, In rd (websso_firsts rels) /\
                 snd (websso_descriptor json_loads rd) = inl e) ->
   exists e, snd (websso_context json_loads rels) = inl e) /\
  (forall rd d, snd (websso_descriptor json_loads rd) = inr d ->
   exists v1 v2 v3,
     d = PDict [("protocol-name", v1); ("idp-name", v2); ("user-facing-name", v3)] /\
     json_loads (rfield rd "protocol-name") = inr v1 /\
     json_loads (rfield rd "idp-name") = inr v2 /\
     json_loads (rfield rd "user-facing-name") = inr v3).
Proof.
  split; [|split].
  - intros Hall. destruct (websso_collect_ok json_loads rels [] Hall) as [ds [Hc Hf]].
    unfold websso_context, bind. rewrite Hc. cbn [app].
    eexists ds, _. split; [reflexivity|]. split; [exact Hf|].
    destruct Hf as [|rd d rds ds' Hd Hf'].
    + split; [reflexivity | intros H; contradiction].
    + split; [discriminate | reflexivity].
  - intros Hex. destruct (websso_collect_err json_loads rels [] Hex) as [e He].
    unfold websso_context, bind.
    destruct (websso_collect json_loads rels []) as [t [e'|ds]]; cbn [snd] in He |- *;
      [exists e'; reflexivity | discriminate].
  - intros rd d. unfold websso_descriptor, websso_keys, bind, lift, ret, mapM.
    destruct (json_loads (rfield rd "protocol-name")) as [|v1]; cbn; [discriminate|].
    destruct (json_loads (rfield rd "idp-name")) as [|v2]; cbn; [discriminate|].
    destruct (json_loads (rfield rd "user-facing-name")) as [|v3]; cbn; [discriminate|].
    intros H. inversion H. exists v1, v2, v3. auto.
Qed.

(** ** HorizonContext *)

(** C9 (counterexample). Whatever bool_from_string does, HorizonContext does not
    omit an absent optional value: with custom-theme unset (the three boolean
    options set to "yes"), it either raises or returns a mapping with a
    custom_theme key (bound to None). *)
Lemma horizon_absent_option_not_omitted :
  ~ exists bool_from_string : pyval -> exn + bool,
      forall (pwgen : string) (config : string -> pyval),
        config "custom-theme" = PNone ->
        exists ctx, snd (horizon_context config bool_from_string pwgen) = inr ctx /\
                    dget ctx "custom_theme" = None.
Proof.
  intros [bfs H]. destruct (H "pw" yes_config eq_refl) as [ctx [Hc Hd]].
  unfold horizon_context, bind, lift, ret in Hc. cbn in Hc.
  destruct (bfs (PStr "yes")) as [e|b]; cbn in Hc; [discriminate|].
  inversion Hc; subst ctx. cbn in Hd. discriminate.
Qed.

(** C9 (amended). HorizonContext never omits a key: when it returns, its mapping
    has exactly its 22 keys in order, every option of [horizon_passthrough]
    bound to its value as read, so that an unset option appears as None (e.g.
    custom_theme, customization_module); webroot defaults to '/', secret to the
    pwgen() password, support_profile is None unless profile is "cisco",
    multi_domain is the negation of default-domain's truthiness and the three
    flags are bool_from_string's results; and it raises exactly when bool_from_string rejects
    offline-compression, debug or ubuntu-theme; ApacheContext likewise always
    carries hsts_max_age_seconds and custom_theme, None when unset. *)
Theorem horizon_context_keeps_all_keys (config : string -> pyval)
        (bool_from_string : pyval -> exn + bool) (pwgen : string) :
  (forall t ctx, horizon_context config bool_from_string pwgen = (t, inr ctx) ->
     t = [] /\ map fst ctx = horizon_keys /\
     dget ctx "custom_theme" = Some (config "custom-theme") /\
     dget ctx "customization_module" = Some (config "customization-module") /\
     dget ctx "support_profile" =
       Some (if is_cisco (config "profile") then config "profile" else PNone) /\
     dget ctx "webroot" = Some (pyor (config "webroot") (PStr "/")) /\
     dget ctx "secret" = Some (pyor (config "secret") (PStr pwgen)) /\
     dget ctx "multi_domain" = Some (PBool (negb (truthy (config "default-domain")))) /\
     (exists b1 b2 b3,
        bool_from_string (config "offline-compression") = inr b1 /\
        bool_from_string (config "debug") = inr b2 /\
        bool_from_string (config "ubuntu-theme") = inr b3 /\
        dget ctx "compress_offline" = Some (PBool b1) /\
        dget ctx "debug" = Some (PBool b2) /\
        dget ctx "ubuntu_theme" = Some (PBool b3)) /\
     Forall (fun ko => dget ctx (fst ko) = Some (config (snd ko))) horizon_passthrough) /\
  ((exists e, snd (horizon_context config bool_from_string pwgen) = inl e) <->
   (exists e, bool_from_string (config "offline-compression") = inl e) \/
   (exists e, bool_from_string (config "debug") = inl e) \/
   (exists e, bool_from_string (config "ubuntu-theme") = inl e)) /\
  (forall get_cert, exists ctx,
     snd (apache_context config get_cert) = inr ctx /\
     dget ctx "hsts_max_age_seconds" = Some (config "hsts-max-age-seconds") /\
     dget ctx "custom_theme" = Some (config "custom-theme")).
Proof.
  split; [|split].
  - intros t ctx. unfold horizon_context, bind, lift, ret.
    destruct (bool_from_string (config "offline-compression")) as [e1|b1] eqn:E1;
      [intros H; inversion H|].
    destruct (bool_from_string (config "debug")) as [e2|b2] eqn:E2; [intros H; inversion H|].
    destruct (bool_from_string (config "ubuntu-theme")) as [e3|b3] eqn:E3;
      [intros H; inversion H|].
    intros H; inversion H; subst.
    repeat (split; [reflexivity|]).
    split; [exists b1, b2, b3; repeat split; (assumption || reflexivity)|].
    repeat constructor.
  - unfold horizon_context, bind, lift, ret.
    destruct (bool_from_string (config "offline-compression")) as [e1|b1];
      [cbn; split; [intros _; left; exists e1; reflexivity | intros _; exists e1; reflexivity]|].
    destruct (bool_from_string (config "debug")) as [e2|b2];
      [cbn; split; [intros _; right; left; exists e2; reflexivity
                   | intros _; exists e2; reflexivity]|].
    destruct (bool_from_string (config "ubuntu-theme")) as [e3|b3];
      [cbn; split; [intros _; right; right; exists e3; reflexivity
                   | intros _; exists e3; reflexivity]|].
    cbn. split; [intros [e He]; discriminate|].
    intros [[e He]|[[e He]|[e He]]]; discriminate.
  - intros get_cert. unfold apache_context.
    destruct (truthy (config "enforce-ssl")); cbn;
      [destruct (truthy (fst get_cert) && truthy (snd get_cert)); cbn|];
      eexists; (split; [reflexivity | split; reflexivity]).
Qed.

(* ------------------------------------------------------------------------- *)
(** * Further properties of the contexts *)

(** ** Endpoint types *)







(** X. normalized forms are fixed points; case-insensitive *)

(** X1. A successful [normalize] returns one of publicURL, internalURL and
    adminURL without logging anything; that result is accepted again and
    returned unchanged, and every spelling with the same upper-casing
    normalises to it. *)
Theorem normalize_idempotent (s f : string) (t : list event) :
  normalize s = (t, inr f) ->
  t = [] /\ In f ["publicURL"; "internalURL"; "adminURL"] /\
  normalize f = ([], inr f) /\
  (forall s', upper s' = upper s -> normalize s' = ([], inr f)).
Proof.
  unfold normalize. intros H.
  cbn [dget VALID_ENDPOINT_TYPES] in H.
  destruct (String.eqb (upper s) "PUBLICURL") eqn:E1;
    [|destruct (String.eqb (upper s) "INTERNALURL") eqn:E2;
      [|destruct (String.eqb (upper s) "ADMINURL") eqn:E3]];
    cbn in H; inversion H; subst;
    (split; [reflexivity | split; [simpl; auto | split; [reflexivity|]]]);
    intros s' E; rewrite E; cbn [dget VALID_ENDPOINT_TYPES];
    repeat match goal with Hq : (_ =? _) = _ |- _ => rewrite Hq end; reflexivity.
Qed.

Lemma normalize_idempotent_witness :
  normalize "AdminURL" = ([], inr "adminURL") /\
  (@nil event = [] /\ In "adminURL" ["publicURL"; "internalURL"; "adminURL"] /\
   normalize "adminURL" = ([], inr "adminURL") /\
   (forall s', upper s' = upper "AdminURL" -> normalize s' = ([], inr "adminURL"))).
Proof.
  split; [reflexivity|].
  apply (normalize_idempotent "AdminURL" "adminURL" []). reflexivity.
Defined.







(** ** Identity records *)

(** X5. When no identity-service record is complete, a returned context holds
    no service_* or regions key: its only possible keys are primary_endpoint
    and secondary_endpoint. *)
Theorem identity_no_complete_record (is_ipv6 : string -> bool) (config : string -> pyval)
        (rels : relation_state) :
  Forall (fun r => context_complete (local_ctxt_of is_ipv6 config r) = false) (all_units rels) ->
  forall t ctx, identity_service_context is_ipv6 config rels = (t, inr ctx) ->
  forall k, In k (map fst ctx) -> k = "primary_endpoint" \/ k = "secondary_endpoint".
Proof.
  intros Hall t ctx.
  assert (Hl : identity_loop is_ipv6 config rels = ([], [])).
  { destruct (identity_loop is_ipv6 config rels) as [c regs] eqn:E.
    assert (Hc : c = []).
    { change c with (fst (c, regs)). rewrite <- E, identity_loop_ctxt.
      destruct (find _ _) as [r|] eqn:Hf; [|reflexivity].
      apply find_some in Hf as [Hin Hc]. rewrite Forall_forall in Hall.
      rewrite (Hall r Hin) in Hc. discriminate. }
    destruct regs as [|p ps]; [rewrite Hc; reflexivity|].
    assert (Hin : In p (snd (identity_loop is_ipv6 config rels))) by (rewrite E; left; reflexivity).
    unfold identity_loop in Hin. apply identity_fold_regions_in in Hin.
    destruct Hin as [[] | [r [Hr [Hc' _]]]].
    rewrite Forall_forall in Hall. rewrite (Hall r Hr) in Hc'. discriminate. }
  unfold identity_service_context; rewrite identity_loopM_eq; unfold bind, emit. rewrite Hl. cbn [length Nat.ltb Nat.leb].
  destruct (truthy (config "endpoint-type")).
  - destruct (config "endpoint-type") as [| | |s| |]; try (intros H; inversion H; fail).
    destruct (mapM normalize (split_on ","%char s)) as [t1 [ex|eps]]; [intros H; inversion H|].
    destruct eps as [|e1 [|e2 rest]]; simpl; intros H; inversion H; subst ctx; simpl;
      intuition.
  - intros H; inversion H; subst ctx. intros k [].
Qed.

Lemma identity_no_complete_record_witness :
  let rels := [("identity-service:1", [("keystone/0", v3_record)])] in
  Forall (fun r => context_complete (local_ctxt_of (fun _ => false) (ep_config "adminURL") r) = false)
         (all_units rels) /\
  forall t ctx,
    identity_service_context (fun _ => false) (ep_config "adminURL") rels = (t, inr ctx) ->
    forall k, In k (map fst ctx) -> k = "primary_endpoint" \/ k = "secondary_endpoint".
Proof.
  intros rels.
  assert (H : Forall (fun r => context_complete
                                 (local_ctxt_of (fun _ => false) (ep_config "adminURL") r) = false)
                     (all_units rels)) by (repeat constructor).
  split; [exact H | exact (identity_no_complete_record (fun _ => false) (ep_config "adminURL") rels H)].
Defined.

(** X6. For a record with service_host h and service_port p, the context's
    service_host is "[h]" when h is an IPv6 address and h otherwise, and the
    record's region endpoint is "proto://host:p/v2.0", proto being
    service_protocol when present and non-empty, "http" otherwise. *)
Theorem identity_service_host_endpoint (is_ipv6 : string -> bool) (config : string -> pyval)
        (r : rdata) (h p : string) :
  dget r "service_host" = Some h -> dget r "service_port" = Some p ->
  let host := if is_ipv6 h then "[" ++ h ++ "]" else h in
  let proto := match dget r "service_protocol" with
               | Some pr => if String.eqb pr "" then "http" else pr
               | None => "http"
               end in
  dget (local_ctxt_of is_ipv6 config r) "service_host" = Some (PStr host) /\
  v2_endpoint (local_ctxt_of is_ipv6 config r) = proto ++ "://" ++ host ++ ":" ++ p ++ "/v2.0".
Proof.
  intros Hh Hp host proto. unfold host, proto; clear host proto.
  unfold v2_endpoint, fmt_field, local_ctxt_of, rget, pyor, format_ipv6_addr.
  rewrite Hh, Hp.
  destruct (is_ipv6 h) eqn:H6;
  destruct (dget r "service_protocol") as [pr|];
  destruct (dget r "api_version") as [a|];
  destruct (truthy (config "default_domain")); simpl;
  repeat (destruct (String.eqb _ _); simpl); split; reflexivity.
Qed.

Lemma identity_service_host_endpoint_witness :
  let r := [("service_host", "fd00::5"); ("service_port", "5000")] in
  let is6 := fun a => String.eqb a "fd00::5" in
  dget (local_ctxt_of is6 (fun _ => PNone) r) "service_host" = Some (PStr "[fd00::5]") /\
  v2_endpoint (local_ctxt_of is6 (fun _ => PNone) r) = "http://[fd00::5]:5000/v2.0".
Proof.
  intros r is6.
  exact (identity_service_host_endpoint is6 (fun _ => PNone) r "fd00::5" "5000" eq_refl eq_refl).
Defined.

(** X7. The identity-service context reads the option default_domain (with an
    underscore): changing the default-domain option that HorizonContext reads
    leaves its result, trace and exceptions unchanged. *)
Theorem identity_ignores_default_domain_option (is_ipv6 : string -> bool)
        (config : string -> pyval) (v : pyval) (rels : relation_state) :
  identity_service_context is_ipv6
    (fun k => if String.eqb k "default-domain" then v else config k) rels =
  identity_service_context is_ipv6 config rels.
Proof. reflexivity. Qed.

(** ** HAProxy *)

Lemma replace_char_idem (a b : ascii) (s : string) :
  Ascii.eqb b a = false -> replace_char a b (replace_char a b s) = replace_char a b s.
Proof.
  intros Hba. induction s as [|c s IH]; simpl; [reflexivity|].
  rewrite IH. destruct (Ascii.eqb c a) eqn:E; [rewrite Hba | rewrite E]; reflexivity.
Qed.

Lemma dset_keys_in {V : Type} (d : dict V) (k : string) (v : V) (x : string) :
  In x (map fst (dset d k v)) <-> x = k \/ In x (map fst d).
Proof.
  induction d as [|[k' v'] d IH]; simpl; [intuition|].
  destruct (String.eqb_spec k k') as [->|Hk]; simpl; [intuition|].
  rewrite IH. intuition.
Qed.

Lemma dset_nodup {V : Type} (d : dict V) (k : string) (v : V) :
  NoDup (map fst d) -> NoDup (map fst (dset d k v)).
Proof.
  induction d as [|[k' v'] d IH]; simpl; intros H; [repeat constructor; intros []|].
  inversion H as [|? ? Hn Hd]; subst.
  destruct (String.eqb_spec k k') as [->|Hk]; simpl; constructor; auto.
  rewrite dset_keys_in. intros [E|E]; [apply Hk; symmetry; exact E | exact (Hn E)].
Qed.

Lemma haproxy_hosts_flat (rels : relation_state) (h0 : dict pyval) :
  fold_left (fun h ru => fold_left add_cluster_unit (snd ru) h) rels h0 =
  fold_left add_cluster_unit (cluster_units rels) h0.
Proof.
  unfold cluster_units. revert h0.
  induction rels as [|ru rels IH]; intros h0; simpl; [reflexivity|].
  rewrite fold_left_app. apply IH.
Qed.

Lemma fold_add_keys (l : list (string * rdata)) (h : dict pyval) (x : string) :
  In x (map fst (fold_left add_cluster_unit l h)) <->
  In x (map fst h) \/ exists ud, In ud l /\ x = unit_key (fst ud).
Proof.
  revert h; induction l as [|ud l IH]; intros h; simpl.
  - split; [intros H; left; exact H | intros [H | [ud [[] _]]]; exact H].
  - rewrite IH. unfold add_cluster_unit at 1. rewrite dset_keys_in. split.
    + intros [[E|E]|[ud' [Hin E]]]; [right; exists ud; auto | left; exact E | right; exists ud'; auto].
    + intros [E|[ud' [[<-|Hin] E]]]; [left; right; exact E | left; left; exact E | right; exists ud'; auto].
Qed.

Lemma fold_add_nodup (l : list (string * rdata)) (h : dict pyval) :
  NoDup (map fst h) -> NoDup (map fst (fold_left add_cluster_unit l h)).
Proof.
  revert h; induction l as [|ud l IH]; intros h H; simpl; [exact H|].
  apply IH. apply dset_nodup, H.
Qed.

Lemma fold_add_other (l : list (string * rdata)) (h : dict pyval) (k : string) :
  Forall (fun ud => unit_key (fst ud) <> k) l ->
  dget (fold_left add_cluster_unit l h) k = dget h k.
Proof.
  revert h; induction l as [|ud l IH]; intros h H; simpl; [reflexivity|].
  inversion H as [|? ? Hud Hl]; subst.
  rewrite IH by exact Hl. unfold add_cluster_unit.
  apply dget_dset_other. intros E; apply Hud; symmetry; exact E.
Qed.

Lemma fold_add_last (pre : list (string * rdata)) (ud : string * rdata)
      (post : list (string * rdata)) (h : dict pyval) :
  Forall (fun ud' => unit_key (fst ud') <> unit_key (fst ud)) post ->
  dget (fold_left add_cluster_unit (app pre (ud :: post)) h) (unit_key (fst ud)) =
  Some (rget (snd ud) "private-address").
Proof.
  intros H. rewrite fold_left_app. simpl. rewrite fold_add_other by exact H.
  unfold add_cluster_unit. apply dget_dset_same.
Qed.


(** X9. The units map of the HAProxy context has no duplicate keys and no "/"
    in any key; its keys are the local unit and every cluster unit, with "/"
    replaced by "-"; a unit's entry is the private-address of the last unit in
    iteration order with that key; and the local unit keeps its own address
    unless a cluster unit has the same key. *)
Theorem haproxy_units_map (config : string -> pyval) (local_unit : string)
        (get_ipv6_addr : list pyval -> exn + list pyval) (get_relation_ip : string -> exn + pyval)
        (rels : relation_state) (t : list event) (ctx : dict pyval) :
  haproxy_context config local_unit get_ipv6_addr get_relation_ip rels = (t, inr ctx) ->
  exists addr hosts,
    snd (haproxy_local_addr config get_ipv6_addr get_relation_ip) = inr addr /\
    dget ctx "units" = Some (PDict hosts) /\
    NoDup (map fst hosts) /\
    (forall k, In k (map fst hosts) -> unit_key k = k) /\
    (forall k, In k (map fst hosts) <->
               k = unit_key local_unit \/
               exists ud, In ud (cluster_units rels) /\ k = unit_key (fst ud)) /\
    (forall pre ud post, cluster_units rels = app pre (ud :: post) ->
       Forall (fun ud' => unit_key (fst ud') <> unit_key (fst ud)) post ->
       dget hosts (unit_key (fst ud)) = Some (rget (snd ud) "private-address")) /\
    (Forall (fun ud => unit_key (fst ud) <> unit_key local_unit) (cluster_units rels) ->
       dget hosts (unit_key local_unit) = Some addr).
Proof.
  unfold haproxy_context, bind, emit, ret.
  destruct (haproxy_local_addr config get_ipv6_addr get_relation_ip) as [t0 [e|addr]] eqn:E;
    [intros H; inversion H|].
  simpl. intros H; inversion H; subst ctx; clear H.
  exists addr, (haproxy_hosts local_unit addr rels).
  unfold haproxy_hosts. rewrite haproxy_hosts_flat. cbn [dset].
  assert (Hkeys : forall k, In k (map fst (fold_left add_cluster_unit (cluster_units rels)
                                             [(unit_key local_unit, addr)])) <->
                            k = unit_key local_unit \/
                            exists ud, In ud (cluster_units rels) /\ k = unit_key (fst ud)).
  { intros k. rewrite fold_add_keys. simpl. intuition. }
  split; [reflexivity|]. split; [reflexivity|].
  split; [apply fold_add_nodup; repeat constructor; intros []|].
  split.
  { intros k Hk. apply Hkeys in Hk as [-> | [ud [_ ->]]];
      unfold unit_key; apply replace_char_idem; reflexivity. }
  split; [exact Hkeys|].
  split.
  - intros pre ud post Hu Hpost. rewrite Hu. apply fold_add_last, Hpost.
  - intros Hall. rewrite fold_add_other by exact Hall. simpl. rewrite String.eqb_refl. reflexivity.
Qed.

Lemma haproxy_units_map_witness :
  let rels := [("cluster:1", [("openstack-dashboard/1", [("private-address", "10.0.0.11")])])] in
  exists t ctx,
    haproxy_context (fun _ => PNone) "openstack-dashboard/0" (fun _ => inr [])
                    (fun _ => inr (PStr "10.0.0.10")) rels = (t, inr ctx) /\
    exists addr hosts,
      snd (haproxy_local_addr (fun _ => PNone) (fun _ => inr []) (fun _ => inr (PStr "10.0.0.10"))) = inr addr /\
      dget ctx "units" = Some (PDict hosts) /\
      NoDup (map fst hosts) /\
      (forall k, In k (map fst hosts) -> unit_key k = k) /\
      (forall k, In k (map fst hosts) <->
                 k = unit_key "openstack-dashboard/0" \/
                 exists ud, In ud (cluster_units rels) /\ k = unit_key (fst ud)) /\
      (forall pre ud post, cluster_units rels = app pre (ud :: post) ->
         Forall (fun ud' => unit_key (fst ud') <> unit_key (fst ud)) post ->
         dget hosts (unit_key (fst ud)) = Some (rget (snd ud) "private-address")) /\
      (Forall (fun ud => unit_key (fst ud) <> unit_key "openstack-dashboard/0") (cluster_units rels) ->
         dget hosts (unit_key "openstack-dashboard/0") = Some addr).
Proof.
  intros rels. do 2 eexists. split; [reflexivity|].
  eapply (haproxy_units_map (fun _ => PNone) "openstack-dashboard/0" (fun _ => inr [])
           (fun _ => inr (PStr "10.0.0.10")) rels). reflexivity.
Defined.

(** ** Consistency between contexts *)

(** X10. RouterSettingContext disables the router tab exactly when
    HorizonContext's support_profile is None, i.e. unless profile is "cisco". *)
Theorem router_tab_matches_support_profile (config : string -> pyval)
        (bool_from_string : pyval -> exn + bool) (pwgen : string)
        (t : list event) (ctx : dict pyval) :
  horizon_context config bool_from_string pwgen = (t, inr ctx) ->
  (dget (router_setting_context config) "disable_router" = Some (PBool true) <->
   dget ctx "support_profile" = Some PNone).
Proof.
  unfold horizon_context, bind, lift, ret.
  destruct (bool_from_string (config "offline-compression")); [intros H; inversion H|].
  destruct (bool_from_string (config "debug")); [intros H; inversion H|].
  destruct (bool_from_string (config "ubuntu-theme")); [intros H; inversion H|].
  intros H; inversion H; subst ctx. unfold router_setting_context. cbn.
  destruct (config "profile") as [| | |s| |]; cbn; try (split; reflexivity).
  destruct (String.eqb s "cisco"); split; intros E; inversion E; reflexivity.
Qed.

Lemma router_tab_matches_support_profile_witness :
  exists t ctx,
    horizon_context yes_config (fun _ => inr true) "pw" = (t, inr ctx) /\
    (dget (router_setting_context yes_config) "disable_router" = Some (PBool true) <->
     dget ctx "support_profile" = Some PNone).
Proof.
  do 2 eexists. split; [reflexivity|].
  eapply (router_tab_matches_support_profile yes_config (fun _ => inr true) "pw"). reflexivity.
Defined.

(** X11. The backend ports of the HAProxy service_ports (80 to 70, 443 to 433)
    are the http_port and https_port that ApacheContext always returns. *)
Theorem apache_ports_are_haproxy_backends (config : string -> pyval) (get_cert : pyval * pyval)
        (local_unit : string) (get_ipv6_addr : list pyval -> exn + list pyval)
        (get_relation_ip : string -> exn + pyval) (rels : relation_state)
        (t : list event) (ctx : dict pyval) :
  haproxy_context config local_unit get_ipv6_addr get_relation_ip rels = (t, inr ctx) ->
  exists actx hp sp,
    snd (apache_context config get_cert) = inr actx /\
    dget actx "http_port" = Some hp /\ dget actx "https_port" = Some sp /\
    dget ctx "service_ports" =
      Some (PDict [("dash_insecure", PList [PInt 80; hp]); ("dash_secure", PList [PInt 443; sp])]).
Proof.
  unfold haproxy_context, bind, emit, ret.
  destruct (haproxy_local_addr config get_ipv6_addr get_relation_ip) as [t0 [e|addr]];
    [intros H; inversion H|].
  simpl. intros H; inversion H; subst ctx.
  unfold apache_context.
  destruct (truthy (config "enforce-ssl"));
    [destruct (truthy (fst get_cert) && truthy (snd get_cert))|]; cbn;
    do 3 eexists; repeat split; reflexivity.
Qed.

Lemma apache_ports_are_haproxy_backends_witness :
  exists t ctx,
    haproxy_context (fun _ => PNone) "openstack-dashboard/0" (fun _ => inr [])
                    (fun _ => inr (PStr "10.0.0.10")) [] = (t, inr ctx) /\
    exists actx hp sp,
      snd (apache_context (fun _ => PNone) (PNone, PNone)) = inr actx /\
      dget actx "http_port" = Some hp /\ dget actx "https_port" = Some sp /\
      dget ctx "service_ports" =
        Some (PDict [("dash_insecure", PList [PInt 80; hp]); ("dash_secure", PList [PInt 443; sp])]).
Proof.
  do 2 eexists. split; [reflexivity|].
  eapply (apache_ports_are_haproxy_backends (fun _ => PNone) (PNone, PNone) "openstack-dashboard/0"
           (fun _ => inr []) (fun _ => inr (PStr "10.0.0.10")) []). reflexivity.
Defined.

(** ** ApacheSSLContext *)

Lemma use_local_ca_some_unit (cert_units : list (string * list string)) :
  Exists (fun ru => snd ru <> []) cert_units -> use_local_ca cert_units = false.
Proof.
  intros H. unfold use_local_ca. generalize true as u.
  assert (Hf : forall l : list (string * list string),
             fold_left (fun use ru => if truthy (PList (map PStr (snd ru)))
                                                 then false else use) l false = false).
  { induction l as [|ru l IH]; cbn [fold_left]; [reflexivity|]. destruct (truthy (PList (map PStr (snd ru)))); exact IH. }
  induction H as [[rid us] l Hne|ru l _ IH]; intros u; cbn [fold_left].
  - simpl in Hne. destruct us as [|x xs]; [contradiction|]. simpl. apply Hf.
  - apply IH.
Qed.

Lemma b64decode_shape (b64decode_str : string -> option string) (v : pyval) :
  exists r, b64decode b64decode_str v = ([], r).
Proof. destruct v; simpl; try destruct (b64decode_str s); eexists; reflexivity. Qed.

(** X12. When some certificates relation id has a unit, ApacheSSLContext does
    nothing and never raises: it returns ssl_configured true with the apache
    certificate and key paths when both files exist, and
    {ssl_configured: false} otherwise. *)
Theorem ssl_certificates_relation_path (cert_units : list (string * list string))
        (ca_cert : pyval) (get_cert : pyval * pyval) (path_exists : string -> bool)
        (b64decode_str : string -> option string) :
  Exists (fun ru => snd ru <> []) cert_units ->
  ssl_context cert_units ca_cert get_cert path_exists b64decode_str =
    ([], inr (if path_exists SSL_CERT_FILE && path_exists SSL_KEY_FILE
              then [("ssl_configured", PBool true); ("ssl_cert", PStr SSL_CERT_FILE);
                    ("ssl_key", PStr SSL_KEY_FILE)]
              else [("ssl_configured", PBool false)])).
Proof.
  intros H. unfold ssl_context. rewrite (use_local_ca_some_unit _ H).
  destruct (_ && _); reflexivity.
Qed.

Lemma ssl_certificates_relation_path_witness :
  ssl_context [("certificates:1", ["vault/0"])] (PStr "Q0E=") (PNone, PNone)
              (fun _ => true) (fun _ => None) =
    ([], inr [("ssl_configured", PBool true); ("ssl_cert", PStr SSL_CERT_FILE);
              ("ssl_key", PStr SSL_KEY_FILE)]).
Proof.
  apply (ssl_certificates_relation_path [("certificates:1", ["vault/0"])] (PStr "Q0E=")
           (PNone, PNone) (fun _ => true) (fun _ => None)).
  apply Exists_cons_hd. discriminate.
Defined.

Ltac ssl_cases b64decode_str ca_cert c k :=
  destruct (b64decode_shape b64decode_str ca_cert) as [[?e0|?ca] ?E0];
  destruct (b64decode_shape b64decode_str c) as [[?e1|?cd] ?E1];
  destruct (b64decode_shape b64decode_str k) as [[?e2|?kd] ?E2];
  repeat match goal with E : b64decode _ _ = _ |- _ => rewrite E; revert E end;
  destruct (truthy ca_cert) eqn:?T0, (truthy c) eqn:?T1, (truthy k) eqn:?T2; intros; cbn.

(** X13. On the local path (no certificates relation unit), the context reports
    ssl_configured true exactly when the CA, certificate and key are present
    (truthy) and decode; it then has installed the CA, written the certificate and key
    files and made the key 0600, in that order. *)
Theorem ssl_local_path_configured (cert_units : list (string * list string))
        (ca_cert : pyval) (get_cert : pyval * pyval) (path_exists : string -> bool)
        (b64decode_str : string -> option string) :
  Forall (fun ru => snd ru = []) cert_units ->
  let run := ssl_context cert_units ca_cert get_cert path_exists b64decode_str in
  (forall t ctx, run = (t, inr ctx) -> dget ctx "ssl_configured" = Some (PBool true) ->
     truthy ca_cert = true /\ truthy (fst get_cert) = true /\ truthy (snd get_cert) = true /\
     exists ca c k,
       b64decode b64decode_str ca_cert = ([], inr ca) /\
       b64decode b64decode_str (fst get_cert) = ([], inr c) /\
       b64decode b64decode_str (snd get_cert) = ([], inr k) /\
       t = [InstallCACert ca; OpenW LOCAL_CERT; Write LOCAL_CERT c; OpenW LOCAL_KEY;
            Write LOCAL_KEY k; Chmod LOCAL_KEY 384] /\
       ctx = [("ssl_configured", PBool true); ("ssl_cert", PStr LOCAL_CERT);
              ("ssl_key", PStr LOCAL_KEY)]) /\
  (forall ca c k,
     truthy ca_cert = true -> truthy (fst get_cert) = true -> truthy (snd get_cert) = true ->
     b64decode b64decode_str ca_cert = ([], inr ca) ->
     b64decode b64decode_str (fst get_cert) = ([], inr c) ->
     b64decode b64decode_str (snd get_cert) = ([], inr k) ->
     run = ([InstallCACert ca; OpenW LOCAL_CERT; Write LOCAL_CERT c; OpenW LOCAL_KEY;
             Write LOCAL_KEY k; Chmod LOCAL_KEY 384],
            inr [("ssl_configured", PBool true); ("ssl_cert", PStr LOCAL_CERT);
                 ("ssl_key", PStr LOCAL_KEY)])).
Proof.
  intros Hu run. unfold run; clear run.
  unfold ssl_context. rewrite (use_local_ca_no_units _ Hu).
  destruct get_cert as [c k]; cbn [fst snd].
  ssl_cases b64decode_str ca_cert c k;
  (split;
   [ intros t ctx H Hs; inversion H; subst; cbn in Hs; try discriminate;
     repeat (split; [reflexivity|]);
     do 3 eexists; repeat split; eassumption
   | intros ca' c' k' H1 H2 H3 F0 F1 F2; try discriminate; congruence ]).
Qed.

Lemma ssl_local_path_configured_witness :
  ssl_context [] (PStr "CA") (PStr "C", PStr "K") (fun _ => false) (fun s => Some s) =
    ([InstallCACert "CA"; OpenW LOCAL_CERT; Write LOCAL_CERT "C"; OpenW LOCAL_KEY;
      Write LOCAL_KEY "K"; Chmod LOCAL_KEY 384],
     inr [("ssl_configured", PBool true); ("ssl_cert", PStr LOCAL_CERT);
          ("ssl_key", PStr LOCAL_KEY)]).
Proof.
  exact (proj2 (ssl_local_path_configured [] (PStr "CA") (PStr "C", PStr "K") (fun _ => false)
                  (fun s => Some s) (Forall_nil _))
           "CA" "C" "K" eq_refl eq_refl eq_refl eq_refl eq_refl eq_refl).
Defined.

(** X14. On the local path with a CA value set: an undecodable CA raises
    before anything is done; a decodable CA without both certificate and key is
    installed and the result is {ssl_configured: false}; an undecodable
    certificate raises after the certificate file is opened (truncated), and
    an undecodable key raises after the certificate is written and the key
    file is opened (truncated), with no chmod. *)
Theorem ssl_local_path_partial_effects (cert_units : list (string * list string))
        (ca_cert : pyval) (get_cert : pyval * pyval) (path_exists : string -> bool)
        (b64decode_str : string -> option string) :
  Forall (fun ru => snd ru = []) cert_units -> truthy ca_cert = true ->
  let run := ssl_context cert_units ca_cert get_cert path_exists b64decode_str in
  (forall e, b64decode b64decode_str ca_cert = ([], inl e) -> run = ([], inl e)) /\
  (forall ca, b64decode b64decode_str ca_cert = ([], inr ca) ->
     truthy (fst get_cert) && truthy (snd get_cert) = false ->
     run = ([InstallCACert ca], inr [("ssl_configured", PBool false)])) /\
  (forall ca e, b64decode b64decode_str ca_cert = ([], inr ca) ->
     truthy (fst get_cert) = true -> truthy (snd get_cert) = true ->
     b64decode b64decode_str (fst get_cert) = ([], inl e) ->
     run = ([InstallCACert ca; OpenW LOCAL_CERT], inl e)) /\
  (forall ca c e, b64decode b64decode_str ca_cert = ([], inr ca) ->
     truthy (fst get_cert) = true -> truthy (snd get_cert) = true ->
     b64decode b64decode_str (fst get_cert) = ([], inr c) ->
     b64decode b64decode_str (snd get_cert) = ([], inl e) ->
     run = ([InstallCACert ca; OpenW LOCAL_CERT; Write LOCAL_CERT c; OpenW LOCAL_KEY], inl e)).
Proof.
  intros Hu Hca run. unfold run; clear run.
  unfold ssl_context. rewrite (use_local_ca_no_units _ Hu), Hca.
  destruct get_cert as [c k]; cbn [fst snd].
  destruct (b64decode_shape b64decode_str ca_cert) as [[e0|ca] E0];
  destruct (b64decode_shape b64decode_str c) as [[e1|cd] E1];
  destruct (b64decode_shape b64decode_str k) as [[e2|kd] E2];
  rewrite ?E0, ?E1, ?E2;
  destruct (truthy c), (truthy k); cbn;
  repeat split; intros; try discriminate;
  repeat match goal with H : (_, _) = (_, _) |- _ => inversion H; clear H; subst end;
  reflexivity.
Qed.

Lemma ssl_local_path_partial_effects_witness :
  let b := fun s => if String.eqb s "bad" then None else Some s in
  ssl_context [] (PStr "CA") (PStr "CERT", PStr "bad") (fun _ => false) b =
    ([InstallCACert "CA"; OpenW LOCAL_CERT; Write LOCAL_CERT "CERT"; OpenW LOCAL_KEY],
     inl (TypeError "Incorrect padding")).
Proof.
  intros b.
  refine (proj2 (proj2 (proj2 (ssl_local_path_partial_effects [] (PStr "CA")
            (PStr "CERT", PStr "bad") (fun _ => false) b (Forall_nil _) eq_refl)))
          "CA" "CERT" (TypeError "Incorrect padding") eq_refl eq_refl eq_refl eq_refl eq_refl).
Defined.

(** ** WebSSO *)

Lemma websso_descriptor_err (json_loads : string -> exn + pyval) (rd : rdata) (e : exn) :
  snd (websso_descriptor json_loads rd) = inl e ->
  exists k, In k websso_keys /\ json_loads (rfield rd k) = inl e.
Proof.
  unfold websso_descriptor, websso_keys, bind, lift, ret, mapM.
  destruct (json_loads (rfield rd "protocol-name")) as [e1|v1] eqn:J1; cbn;
    [intros H; inversion H; subst; exists "protocol-name"; simpl; auto|].
  destruct (json_loads (rfield rd "idp-name")) as [e2|v2] eqn:J2; cbn;
    [intros H; inversion H; subst; exists "idp-name"; simpl; auto|].
  destruct (json_loads (rfield rd "user-facing-name")) as [e3|v3] eqn:J3; cbn;
    [intros H; inversion H; subst; exists "user-facing-name"; simpl; auto|].
  discriminate.
Qed.

Lemma websso_collect_effects (json_loads : string -> exn + pyval) (rels : relation_state)
      (acc : list pyval) :
  fst (websso_collect json_loads rels acc) = [] /\
  (forall e, snd (websso_collect json_loads rels acc) = inl e ->
   exists rd k, In rd (websso_firsts rels) /\ In k websso_keys /\ json_loads (rfield rd k) = inl e).
Proof.
  unfold websso_firsts.
  revert acc; induction rels as [|[rid units] rels IH]; intros acc;
    cbn [flat_map websso_collect snd].
  - split; [reflexivity | intros e H; discriminate].
  - unfold websso_first_unit; cbn [snd].
    destruct units as [|[u rd] us]; cbn [app]; [apply IH|].
    destruct (has_keys websso_keys rd); cbn [app]; [|apply IH].
    unfold bind.
    destruct (websso_descriptor json_loads rd) as [t [e0|d]] eqn:E.
    + pose proof (websso_descriptor_no_events json_loads rd) as Ht. rewrite E in Ht.
      cbn in Ht |- *. subst t. split; [reflexivity|].
      intros e He; inversion He; subst e0.
      destruct (websso_descriptor_err json_loads rd e) as [k [Hk Hj]]; [rewrite E; reflexivity|].
      exists rd, k. split; [left; reflexivity | auto].
    + pose proof (websso_descriptor_no_events json_loads rd) as Ht. rewrite E in Ht.
      cbn in Ht. subst t.
      destruct (IH (app acc [d])) as [H1 H2].
      destruct (websso_collect json_loads rels (app acc [d])) as [t1 r1]; cbn in H1, H2 |- *.
      subst t1. split; [reflexivity|].
      intros e He. destruct (H2 e He) as [rd' [k [Hin Hk]]].
      exists rd', k. split; [right; exact Hin | exact Hk].
Qed.

(** X15. The WebSSO context never logs or writes anything, and when it raises,
    the exception is the one json_loads raised on one of the three keys of a
    relation id's first unit. *)
Theorem websso_errors_only_from_json (json_loads : string -> exn + pyval) (rels : relation_state) :
  fst (websso_context json_loads rels) = [] /\
  (forall e, snd (websso_context json_loads rels) = inl e ->
   exists rd k, In rd (websso_firsts rels) /\ In k websso_keys /\
                json_loads (rfield rd k) = inl e).
Proof.
  destruct (websso_collect_effects json_loads rels []) as [H1 H2].
  unfold websso_context, bind.
  destruct (websso_collect json_loads rels []) as [t [e|ds]]; cbn in H1, H2 |- *; subst t.
  - split; [reflexivity|]. intros e' He; inversion He; subst. apply H2. reflexivity.
  - split; [reflexivity | discriminate].
Qed.
